(** * Relay-style Edge/Connection generators of [lib/utils/appsync.ts]

    A shallow embedding of the schema helper of the back end: the naming
    function [obtainName], the generators [generateEdge],
    [generateConnection] and [generateConnectionAndEdge], and the shared
    [PageInfo] descriptor, followed by the properties the specification
    states about them.

    Object types are JavaScript objects: they have an identity, the source
    compares them with [==], and a field type refers to an object type by
    reference.  The embedding therefore keeps a store of object types and
    names each one by its address; every [new ObjectType(...)] allocates.

    The source calls two functions that are not its own, the [pluralize]
    package and the built-in [String.prototype.toLowerCase].  Both are
    parameters of the generators; a theorem states what it assumes of them,
    and the concrete runs use stand-ins on ASCII nouns. *)

From Stdlib Require Import Ascii String.
From stdpp Require Import base option list strings gmap fin_maps.

(** ** The schema library's data, as the source uses it *)

(** Address of an [ObjectType] instance in the store: its identity. *)
Definition loc := nat.

(** Modelled from the spec: the [Type] enumeration of the schema library
    (not part of this repository).  The spec lists the scalar kinds int,
    string, id, float and boolean, and the reference to an object type. *)
Inductive Type_ : Set :=
  | ID | STRING | INT | FLOAT | BOOLEAN | INTERMEDIATE.

(** Modelled from the spec: the library's [GraphqlType], a field type
    descriptor.  A base kind, the orthogonal modifiers list and required,
    and, for a reference, the object type referred to (by identity). *)
Record GraphqlType : Type := mkGraphqlType {
  type : Type_;
  isList : bool;
  isRequired : bool;
  isRequiredList : bool;
  intermediateType : option loc
}.

(** Modelled from the spec: the library's [BaseTypeOptions], the argument of
    [GraphqlType.int(...)] and of [attribute(...)].  A modifier that the
    caller leaves out is [false]. *)
Record BaseTypeOptions : Type := mkOptions {
  opt_isList : bool;
  opt_isRequired : bool;
  opt_isRequiredList : bool
}.

Definition no_options : BaseTypeOptions := mkOptions false false false.
Definition opt_list : BaseTypeOptions := mkOptions true false false.
Definition opt_required : BaseTypeOptions := mkOptions false true false.

(** Modelled from the spec: the library's [ObjectType], a named aggregate of
    field name to field type pairs. *)
Record ObjectType : Type := mkObjectType {
  name : string;
  definition : gmap string GraphqlType
}.

(** A scalar field type: [GraphqlType.int(o)], [GraphqlType.string(o)], ... *)
Definition scalar (t : Type_) (o : BaseTypeOptions) : GraphqlType :=
  mkGraphqlType t (opt_isList o) (opt_isRequired o) (opt_isRequiredList o) None.

(** An object literal [{k1: v1, ..., kn: vn}]: the properties are defined from
    left to right, and a key that occurs again (a computed key can) replaces
    the value defined before. *)
Definition object_literal {V : Type} (props : list (string * V)) : gmap string V :=
  foldl (fun m kv => <[kv.1 := kv.2]> m) ∅ props.

(** Strings are sequences of bytes, the UTF-8 encoding of the JavaScript
    string: an ASCII character is its own byte and no byte of another
    character is below 128. *)

(** Lower-casing of one ASCII letter: A to Z become a to z. *)
Definition lower_ascii (c : ascii) : ascii :=
  let n := nat_of_ascii c in
  if (65 <=? n)%nat && (n <=? 90)%nat then ascii_of_nat (n + 32) else c.

(** A sample lower-casing for concrete runs.  [String.prototype.toLowerCase]
    is a built-in of the language and follows the Unicode case mapping; the
    generators take it as a parameter.  This stand-in maps the letters A to Z
    to a to z and keeps every other byte: it is what the built-in does on
    ASCII strings, the only ones the concrete runs use, and it is not used
    for any other string. *)
Fixpoint toLowerCase_ascii (s : string) : string :=
  match s with
  | EmptyString => EmptyString
  | String c s' => String (lower_ascii c) (toLowerCase_ascii s')
  end.

(** ** The store and the monad of the generators *)

(** The object types constructed so far; the address of one is its index. *)
Definition heap := list ObjectType.

(** A computation reads and extends the store, or fails ([None]): reading a
    property of, or calling a method on, something that is not an object. *)
Definition M (A : Type) : Type := heap -> option (A * heap).

Global Instance M_ret : MRet M := fun A a h => Some (a, h).

Global Instance M_bind : MBind M := fun A B f m h =>
  match m h with
  | Some (a, h') => f a h'
  | None => None
  end.

(** [new ObjectType(name, {definition})]. *)
Definition new_ObjectType (n : string) (d : gmap string GraphqlType) : M loc :=
  fun h => Some (length h, h ++ [mkObjectType n d]).

(** [o.name]. *)
Definition get_name (o : loc) : M string :=
  fun h => match h !! o with
           | Some obj => Some (name obj, h)
           | None => None
           end.

(** [o.attribute(options)]: a field type that refers to [o]. *)
Definition attribute (o : loc) (opts : BaseTypeOptions) : M GraphqlType :=
  fun h => match h !! o with
           | Some _ =>
               Some (mkGraphqlType INTERMEDIATE (opt_isList opts)
                       (opt_isRequired opts) (opt_isRequiredList opts) (Some o), h)
           | None => None
           end.

(** ** [lib/utils/appsync.ts] *)

Definition int : GraphqlType := scalar INT no_options.
Definition list_int : GraphqlType := scalar INT opt_list.
Definition string_ : GraphqlType := scalar STRING no_options.
Definition list_string : GraphqlType := scalar STRING opt_list.
Definition required_string : GraphqlType := scalar STRING opt_required.
Definition id : GraphqlType := scalar ID no_options.
Definition required_id : GraphqlType := scalar ID opt_required.
Definition required_boolean : GraphqlType := scalar BOOLEAN opt_required.
Definition float : GraphqlType := scalar FLOAT no_options.

Definition list_of (t : loc) : M GraphqlType := attribute t opt_list.
Definition required (t : loc) : M GraphqlType := attribute t opt_required.

Definition args : gmap string GraphqlType :=
  object_literal
    [ ("after", string_); ("first", int); ("before", string_); ("last", int) ].

(** The definition of the [PageInfo] object type. *)
Definition PageInfo_definition : gmap string GraphqlType :=
  object_literal
    [ ("hasNextPage", required_boolean);
      ("hasPreviousPage", required_boolean);
      ("startCursor", string_);
      ("endCursor", string_) ].

(** What the module exports once loaded: the address of [PageInfo]. *)
Record exports : Type := mkExports { PageInfo : loc }.

(** Loading the module evaluates [export const PageInfo = new ObjectType(...)]. *)
Definition load_module : M exports :=
  p ← new_ObjectType "PageInfo" PageInfo_definition;
  mret (mkExports p).

Record baseOptions : Type := mkBaseOptions {
  base : loc;
  target : loc
}.

(** The value [generateConnectionAndEdge] returns: [{edge, connection}]. *)
Record edge_and_connection : Type := mkPair {
  edge : loc;
  connection : loc
}.

Section Generators.

(** The [pluralize] package (not part of this repository). *)
Variable pluralize : string -> string.

(** [String.prototype.toLowerCase], the built-in of the language: the source
    calls it on the pluralized name of the target. *)
Variable toLowerCase : string -> string.

Definition obtainName (suffix : string) (options : baseOptions) : M string :=
  let isSame := bool_decide (base options = target options) in
  prefix ← (if isSame then mret "" else get_name (base options));
  target_name ← get_name (target options);
  let target := pluralize target_name in
  mret (prefix +:+ target +:+ suffix).

Definition generateEdge (options : baseOptions) : M loc :=
  n ← obtainName "Edge" options;
  node ← attribute (target options) no_options;
  new_ObjectType n
    (object_literal [ ("node", node); ("cursor", required_string) ]).

Definition generateConnection (env : exports) (edge : loc)
    (options : baseOptions) : M loc :=
  n ← obtainName "Connection" options;
  target_name ← get_name (target options);
  let plural := toLowerCase (pluralize target_name) in
  pageInfo ← attribute (PageInfo env) opt_required;
  edges ← attribute edge opt_list;
  targets ← attribute (target options) opt_list;
  new_ObjectType n
    (object_literal
       [ ("pageInfo", pageInfo);
         ("edges", edges);
         ("totalCount", int);
         (plural, targets) ]).

Definition generateConnectionAndEdge (env : exports)
    (options : baseOptions) : M edge_and_connection :=
  edge ← generateEdge options;
  connection ← generateConnection env edge options;
  mret (mkPair edge connection).

End Generators.

(** Modelled from the spec: a sample pluralizer for concrete runs, the
    [pluralize] package not being part of this repository.  The spec names
    the regular "-s" rule and the irregular plurals "Person" to "People" and
    "Category" to "Categories"; this stand-in implements exactly those, and
    agrees with the package on the nouns the examples use (Student, Course,
    Review, Edge).  The general theorems quantify over the pluralizer. *)
Definition pluralize_en (s : string) : string :=
  if String.eqb s "Person" then "People"
  else if String.eqb s "Category" then "Categories"
  else s +:+ "s".

(** ** Field shapes

    What a field type says once the object type it refers to is replaced by
    that type's name: the kind, the modifiers and the referenced name. *)
Record FieldShape : Type := mkShape {
  shape_type : Type_;
  shape_isList : bool;
  shape_isRequired : bool;
  shape_isRequiredList : bool;
  shape_ref : option string
}.

Definition shape (h : heap) (g : GraphqlType) : FieldShape :=
  mkShape (type g) (isList g) (isRequired g) (isRequiredList g)
    (l ← intermediateType g; name <$> h !! l).

(** Two object types have the same value in a store: the same name and the
    same field definitions. *)
Definition same_value (h : heap) (o1 o2 : ObjectType) : Prop :=
  name o1 = name o2 /\
  shape h <$> definition o1 = shape h <$> definition o2.

(** Calling 4.2 and then 4.3 of the specification, written out: the Edge
    generator first, the Connection generator on that Edge next. *)
Definition edge_then_connection (pluralize toLowerCase : string -> string)
    (env : exports) (options : baseOptions) : M edge_and_connection :=
  fun h =>
    match generateEdge pluralize options h with
    | None => None
    | Some (e, h1) =>
        match generateConnection pluralize toLowerCase env e options h1 with
        | None => None
        | Some (c, h2) => Some (mkPair e c, h2)
        end
    end.

(** A reference to the object type [o] with the given modifiers. *)
Definition reference (o : loc) (list req : bool) : GraphqlType :=
  mkGraphqlType INTERMEDIATE list req false (Some o).

(** An upper-case ASCII letter. *)
Definition is_upper (c : ascii) : bool :=
  let n := nat_of_ascii c in (65 <=? n)%nat && (n <=? 90)%nat.

Fixpoint has_upper (s : string) : bool :=
  match s with
  | EmptyString => false
  | String c s' => is_upper c || has_upper s'
  end.

(** What the theorems assume of [String.prototype.toLowerCase]: its result
    holds none of the letters A to Z.  (Every upper-case letter is mapped to
    lower-case ones, and no character is mapped to an upper-case ASCII
    letter.) *)
Definition no_upper_case (toLowerCase : string -> string) : Prop :=
  forall s, has_upper (toLowerCase s) = false.

(** ** Sample object types and a sample store, for concrete runs *)

Definition Student_type : ObjectType :=
  mkObjectType "Student"
    (object_literal [ ("id", required_id); ("name", string_) ]).

Definition Course_type : ObjectType :=
  mkObjectType "Course"
    (object_literal [ ("id", required_id); ("title", string_); ("credit", int) ]).

Definition Review_type : ObjectType :=
  mkObjectType "Review"
    (object_literal [ ("id", required_id); ("comment", string_) ]).

Definition Edge_type : ObjectType :=
  mkObjectType "Edge" (object_literal [ ("id", required_id) ]).

(** The store once the module is loaded and the caller has built its object
    types: [PageInfo] at 0, Student at 1, Course at 2, two distinct object
    types of the same value (Review) at 3 and 4, and one named Edge at 5. *)
Definition sample_heap : heap :=
  [ mkObjectType "PageInfo" PageInfo_definition;
    Student_type; Course_type; Review_type; Review_type; Edge_type ].

Definition sample_env : exports := mkExports 0.

(** The Edge that [generateEdge] builds for (Student, Course), and the sample
    store once it is built, at address 6. *)
Definition StudentCoursesEdge_type : ObjectType :=
  mkObjectType "StudentCoursesEdge"
    (object_literal
       [ ("node", mkGraphqlType INTERMEDIATE false false false (Some 2));
         ("cursor", required_string) ]).

Definition sample_heap_with_edge : heap :=
  sample_heap ++ [StudentCoursesEdge_type].

(** ** Well-formed stores *)

(** A field type is well-formed in a store: it refers to an object type
    exactly when its kind is [INTERMEDIATE], and the object type it refers to
    is in the store. *)
Definition field_ok (h : heap) (g : GraphqlType) : Prop :=
  match intermediateType g with
  | Some r => type g = INTERMEDIATE /\ is_Some (h !! r)
  | None => type g <> INTERMEDIATE
  end.

(** Every field of every object type of the store is well-formed: no
    reference leaves the store. *)
Definition closed (h : heap) : Prop :=
  Forall (fun o => map_Forall (fun _ g => field_ok h g) (definition o)) h.

(** Every reference held by the object type [o], at address [l], is to an
    address allocated before [l]. *)
Definition refers_back (l : loc) (o : ObjectType) : Prop :=
  map_Forall
    (fun _ g => forall r, intermediateType g = Some r -> r < l)
    (definition o).

(** A store with an object type whose name is the concatenation of the names
    of two others: [PageInfo] at 0, Course at 1, Review at 2 and
    CourseReview at 3. *)
Definition CourseReview_type : ObjectType :=
  mkObjectType "CourseReview"
    (object_literal [ ("id", required_id); ("comment", string_) ]).

Definition review_heap : heap :=
  [ mkObjectType "PageInfo" PageInfo_definition;
    Course_type; Review_type; CourseReview_type ].

(** * Properties *)

(** ** Lower-casing *)

Lemma lower_ascii_not_upper (c : ascii) : is_upper (lower_ascii c) = false.
Proof.
  destruct c as [[] [] [] [] [] [] [] []]; vm_compute; reflexivity.
Qed.

Lemma toLowerCase_ascii_no_upper : no_upper_case toLowerCase_ascii.
Proof.
  intros s. induction s as [|c s IH]; simpl; [reflexivity|].
  rewrite lower_ascii_not_upper, IH. reflexivity.
Qed.

Section LowerCase.

Variable toLowerCase : string -> string.
Hypothesis toLowerCase_no_upper : no_upper_case toLowerCase.

Lemma toLowerCase_neq (s k : string) : has_upper k = true -> toLowerCase s ≠ k.
Proof.
  intros Hk Heq. rewrite <- Heq, toLowerCase_no_upper in Hk. discriminate.
Qed.

Lemma toLowerCase_not_pageInfo (s : string) : toLowerCase s ≠ "pageInfo".
Proof. apply toLowerCase_neq. reflexivity. Qed.

Lemma toLowerCase_not_totalCount (s : string) : toLowerCase s ≠ "totalCount".
Proof. apply toLowerCase_neq. reflexivity. Qed.

End LowerCase.

(** ** Running the monad *)

Lemma bind_Some {A B : Type} (m : M A) (f : A -> M B) (h h' : heap) (b : B) :
  (m ≫= f) h = Some (b, h') <->
  exists a h1, m h = Some (a, h1) /\ f a h1 = Some (b, h').
Proof.
  unfold mbind, M_bind. split.
  - destruct (m h) as [[a h1]|]; [|discriminate]. eauto.
  - intros (a & h1 & -> & Hf). exact Hf.
Qed.

Lemma get_name_Some (o : loc) (h : heap) (obj : ObjectType) :
  h !! o = Some obj -> get_name o h = Some (name obj, h).
Proof. unfold get_name. intros ->. reflexivity. Qed.

Lemma get_name_inv (o : loc) (h h' : heap) (n : string) :
  get_name o h = Some (n, h') ->
  h' = h /\ exists obj, h !! o = Some obj /\ n = name obj.
Proof.
  unfold get_name. destruct (h !! o) as [obj|]; [|discriminate].
  intros [= <- <-]. eauto.
Qed.

Lemma attribute_Some (o : loc) (opts : BaseTypeOptions) (h : heap) :
  is_Some (h !! o) ->
  attribute o opts h =
    Some (mkGraphqlType INTERMEDIATE (opt_isList opts) (opt_isRequired opts)
            (opt_isRequiredList opts) (Some o), h).
Proof. unfold attribute. intros [obj ->]. reflexivity. Qed.

Lemma attribute_inv (o : loc) (opts : BaseTypeOptions) (h h' : heap)
    (g : GraphqlType) :
  attribute o opts h = Some (g, h') ->
  h' = h /\ is_Some (h !! o) /\
  g = mkGraphqlType INTERMEDIATE (opt_isList opts) (opt_isRequired opts)
        (opt_isRequiredList opts) (Some o).
Proof.
  unfold attribute. destruct (h !! o) as [obj|]; [|discriminate].
  intros [= <- <-]. eauto.
Qed.

Lemma new_ObjectType_lookup (n : string) (d : gmap string GraphqlType)
    (h : heap) :
  (h ++ [mkObjectType n d]) !! length h = Some (mkObjectType n d).
Proof. apply list_lookup_middle. reflexivity. Qed.

(** ** What each generator computes *)

Section Runs.

Variable pluralize : string -> string.
Variable toLowerCase : string -> string.

(** The prefix [obtainName] puts before the pluralized target name. *)
Lemma obtainName_iff (suffix : string) (options : baseOptions)
    (h h' : heap) (n : string) :
  obtainName pluralize suffix options h = Some (n, h') <->
  h' = h /\
  exists ot prefix,
    h !! target options = Some ot /\
    (if bool_decide (base options = target options)
     then Some "" else name <$> h !! base options) = Some prefix /\
    n = prefix +:+ pluralize (name ot) +:+ suffix.
Proof.
  unfold obtainName. rewrite bind_Some. split.
  - intros (prefix & h1 & Hp & Hrest).
    apply bind_Some in Hrest as (tn & h2 & Ht & Hret).
    apply get_name_inv in Ht as (-> & ot & Hot & ->).
    injection Hret as <- <-.
    destruct (bool_decide (base options = target options)).
    + injection Hp as <- <-. split; [reflexivity|].
      exists ot, "". auto.
    + apply get_name_inv in Hp as (-> & ob & Hob & ->).
      split; [reflexivity|]. exists ot, (name ob).
      rewrite Hob. auto.
  - intros (-> & ot & prefix & Hot & Hp & ->).
    exists prefix, h. split.
    + destruct (bool_decide (base options = target options)).
      * injection Hp as <-. reflexivity.
      * destruct (h !! base options) as [ob|] eqn:Hob; [|discriminate].
        injection Hp as <-. apply get_name_Some. exact Hob.
    + apply bind_Some. exists (name ot), h.
      split; [apply get_name_Some; exact Hot|reflexivity].
Qed.

Lemma obtainName_target (suffix : string) (options : baseOptions)
    (h h' : heap) (n : string) :
  obtainName pluralize suffix options h = Some (n, h') ->
  h' = h /\ is_Some (h !! target options).
Proof.
  intros (-> & ot & _ & Hot & _)%obtainName_iff. eauto.
Qed.

Lemma generateEdge_iff (options : baseOptions) (h h' : heap) (e : loc) :
  generateEdge pluralize options h = Some (e, h') <->
  exists n,
    obtainName pluralize "Edge" options h = Some (n, h) /\
    e = length h /\
    h' = h ++ [mkObjectType n
                 (object_literal
                    [ ("node", reference (target options) false false);
                      ("cursor", required_string) ])].
Proof.
  unfold generateEdge. rewrite bind_Some. split.
  - intros (n & h1 & Hn & Hrest).
    destruct (obtainName_target _ _ _ _ _ Hn) as [-> _].
    apply bind_Some in Hrest as (node & h2 & Hnode & Hnew).
    apply attribute_inv in Hnode as (-> & _ & ->).
    injection Hnew as <- <-. exists n. auto.
  - intros (n & Hn & -> & ->). exists n, h. split; [exact Hn|].
    destruct (obtainName_target _ _ _ _ _ Hn) as [_ HT].
    apply bind_Some. eexists _, h. split; [apply attribute_Some; exact HT|].
    reflexivity.
Qed.

Lemma generateConnection_iff (env : exports) (edge : loc)
    (options : baseOptions) (h h' : heap) (c : loc) :
  generateConnection pluralize toLowerCase env edge options h = Some (c, h') <->
  exists n ot,
    obtainName pluralize "Connection" options h = Some (n, h) /\
    h !! target options = Some ot /\
    is_Some (h !! PageInfo env) /\
    is_Some (h !! edge) /\
    c = length h /\
    h' = h ++ [mkObjectType n
                 (object_literal
                    [ ("pageInfo", reference (PageInfo env) false true);
                      ("edges", reference edge true false);
                      ("totalCount", int);
                      (toLowerCase (pluralize (name ot)),
                       reference (target options) true false) ])].
Proof.
  unfold generateConnection. rewrite bind_Some. split.
  - intros (n & h1 & Hn & Hrest).
    destruct (obtainName_target _ _ _ _ _ Hn) as [-> _].
    apply bind_Some in Hrest as (tn & h2 & Ht & Hrest).
    apply get_name_inv in Ht as (-> & ot & Hot & ->).
    apply bind_Some in Hrest as (pi & h3 & Hpi & Hrest).
    apply attribute_inv in Hpi as (-> & HP & ->).
    apply bind_Some in Hrest as (es & h4 & Hes & Hrest).
    apply attribute_inv in Hes as (-> & HE & ->).
    apply bind_Some in Hrest as (ts & h5 & Hts & Hnew).
    apply attribute_inv in Hts as (-> & _ & ->).
    injection Hnew as <- <-. exists n, ot. auto 10.
  - intros (n & ot & Hn & Hot & HP & HE & -> & ->).
    exists n, h. split; [exact Hn|].
    apply bind_Some. exists (name ot), h.
    split; [apply get_name_Some; exact Hot|].
    apply bind_Some. eexists _, h. split; [apply attribute_Some; exact HP|].
    apply bind_Some. eexists _, h. split; [apply attribute_Some; exact HE|].
    apply bind_Some. eexists _, h.
    split; [apply attribute_Some; rewrite Hot; eauto|]. reflexivity.
Qed.

Lemma generateConnectionAndEdge_iff (env : exports) (options : baseOptions)
    (h h' : heap) (r : edge_and_connection) :
  generateConnectionAndEdge pluralize toLowerCase env options h
    = Some (r, h') <->
  exists h1,
    generateEdge pluralize options h = Some (edge r, h1) /\
    generateConnection pluralize toLowerCase env (edge r) options h1
      = Some (connection r, h').
Proof.
  unfold generateConnectionAndEdge. rewrite bind_Some. split.
  - intros (e & h1 & He & Hrest).
    apply bind_Some in Hrest as (c & h2 & Hc & Hret).
    injection Hret as <- <-. exists h1. auto.
  - intros (h1 & He & Hc). exists (edge r), h1. split; [exact He|].
    apply bind_Some. exists (connection r), h'. split; [exact Hc|].
    destruct r; reflexivity.
Qed.

End Runs.

(** ** The object literals of the generators *)

Lemma edge_literal (node cursor : GraphqlType) :
  let d := object_literal [ ("node", node); ("cursor", cursor) ] in
  size d = 2 /\ d !! "node" = Some node /\ d !! "cursor" = Some cursor.
Proof.
  cbn. split_and!.
  - rewrite !map_size_insert_None, map_size_empty; [reflexivity|..];
      by simplify_map_eq.
  - by simplify_map_eq.
  - by simplify_map_eq.
Qed.

Lemma connection_literal (p e i t : GraphqlType) (plural : string) :
  plural ≠ "pageInfo" -> plural ≠ "edges" -> plural ≠ "totalCount" ->
  let d := object_literal
             [ ("pageInfo", p); ("edges", e); ("totalCount", i); (plural, t) ] in
  size d = 4 /\ d !! "pageInfo" = Some p /\ d !! "edges" = Some e /\
  d !! "totalCount" = Some i /\ d !! plural = Some t.
Proof.
  intros H1 H2 H3. cbn. split_and!.
  - rewrite !map_size_insert_None, map_size_empty; [reflexivity|..];
      by simplify_map_eq.
  - by simplify_map_eq.
  - by simplify_map_eq.
  - by simplify_map_eq.
  - by simplify_map_eq.
Qed.

Lemma connection_literal_pageInfo (p e i t : GraphqlType) (plural : string) :
  plural ≠ "pageInfo" ->
  object_literal
    [ ("pageInfo", p); ("edges", e); ("totalCount", i); (plural, t) ]
    !! "pageInfo" = Some p.
Proof. intros H. cbn. by simplify_map_eq. Qed.

Lemma connection_literal_collision (p e i t : GraphqlType) :
  let d := object_literal
             [ ("pageInfo", p); ("edges", e); ("totalCount", i); ("edges", t) ] in
  size d = 3 /\ d !! "pageInfo" = Some p /\ d !! "edges" = Some t /\
  d !! "totalCount" = Some i.
Proof.
  cbn. split_and!.
  - rewrite (insert_insert_ne _ "edges" "totalCount") by done.
    rewrite insert_insert_eq.
    rewrite !map_size_insert_None, map_size_empty; [reflexivity|..];
      by simplify_map_eq.
  - by simplify_map_eq.
  - by simplify_map_eq.
  - by simplify_map_eq.
Qed.

(** ** The generators return on well-formed arguments *)

Section Totality.

Variable pluralize : string -> string.
Variable toLowerCase : string -> string.

Lemma obtainName_total (suffix : string) (options : baseOptions) (h : heap)
    (ob ot : ObjectType) :
  h !! base options = Some ob ->
  h !! target options = Some ot ->
  obtainName pluralize suffix options h =
    Some ((if bool_decide (base options = target options)
           then "" else name ob) +:+ pluralize (name ot) +:+ suffix, h).
Proof.
  intros Hob Hot. apply obtainName_iff. split; [reflexivity|].
  exists ot, (if bool_decide (base options = target options)
              then "" else name ob).
  split_and!; [exact Hot| |reflexivity].
  case_bool_decide; [reflexivity|]. rewrite Hob. reflexivity.
Qed.

Lemma generateEdge_total (options : baseOptions) (h : heap)
    (ob ot : ObjectType) :
  h !! base options = Some ob ->
  h !! target options = Some ot ->
  generateEdge pluralize options h =
    Some (length h,
          h ++ [mkObjectType
                  ((if bool_decide (base options = target options)
                    then "" else name ob) +:+ pluralize (name ot) +:+ "Edge")
                  (object_literal
                     [ ("node", reference (target options) false false);
                       ("cursor", required_string) ])]).
Proof.
  intros Hob Hot. apply generateEdge_iff. eexists. split_and!; [|done..].
  apply obtainName_total; assumption.
Qed.

Lemma generateConnection_total (env : exports) (edge : loc)
    (options : baseOptions) (h : heap) (ob ot : ObjectType) :
  h !! base options = Some ob ->
  h !! target options = Some ot ->
  is_Some (h !! PageInfo env) ->
  is_Some (h !! edge) ->
  generateConnection pluralize toLowerCase env edge options h =
    Some (length h,
          h ++ [mkObjectType
                  ((if bool_decide (base options = target options)
                    then "" else name ob)
                   +:+ pluralize (name ot) +:+ "Connection")
                  (object_literal
                     [ ("pageInfo", reference (PageInfo env) false true);
                       ("edges", reference edge true false);
                       ("totalCount", int);
                       (toLowerCase (pluralize (name ot)),
                        reference (target options) true false) ])]).
Proof.
  intros Hob Hot HP HE. apply generateConnection_iff.
  eexists _, ot. split_and!; [|done..].
  apply obtainName_total; assumption.
Qed.

(** The store only grows: what was there stays at its address. *)
Lemma lookup_snoc_old (h : heap) (o obj : ObjectType) (l : loc) :
  h !! l = Some o -> (h ++ [obj]) !! l = Some o.
Proof. apply lookup_app_l_Some. Qed.

Lemma is_Some_snoc_old (h : heap) (obj : ObjectType) (l : loc) :
  is_Some (h !! l) -> is_Some ((h ++ [obj]) !! l).
Proof. intros [o Ho]. exists o. by apply lookup_snoc_old. Qed.

Lemma lookup_length_None (h : heap) : h !! length h = None.
Proof. apply lookup_ge_None. lia. Qed.

End Totality.

(** ** The naming function *)

(** C1.  The naming function returns [pluralize(T.name) + s] when the base and
    the target are the identical descriptor, and
    [B.name + pluralize(T.name) + s] when they are distinct descriptors. *)
Theorem obtainName_correct (pluralize : string -> string) (suffix : string)
    (B T : loc) (h : heap) (ob ot : ObjectType) :
  h !! B = Some ob ->
  h !! T = Some ot ->
  (B = T ->
   obtainName pluralize suffix (mkBaseOptions B T) h
     = Some (pluralize (name ot) +:+ suffix, h)) /\
  (B ≠ T ->
   obtainName pluralize suffix (mkBaseOptions B T) h
     = Some (name ob +:+ pluralize (name ot) +:+ suffix, h)).
Proof.
  intros Hob Hot.
  pose proof (obtainName_total pluralize suffix (mkBaseOptions B T) h ob ot
                Hob Hot) as Hrun.
  cbn [base target] in Hrun. split; intros HBT.
  - rewrite Hrun, bool_decide_eq_true_2 by exact HBT. reflexivity.
  - rewrite Hrun, bool_decide_eq_false_2 by exact HBT. reflexivity.
Qed.

Lemma obtainName_correct_witness :
  obtainName pluralize_en "Edge" (mkBaseOptions 1 2) sample_heap
    = Some ("StudentCoursesEdge", sample_heap) /\
  obtainName pluralize_en "Connection" (mkBaseOptions 3 3) sample_heap
    = Some ("ReviewsConnection", sample_heap).
Proof.
  split.
  - apply (obtainName_correct pluralize_en "Edge" 1 2 sample_heap
             Student_type Course_type eq_refl eq_refl).
    discriminate.
  - apply (obtainName_correct pluralize_en "Connection" 3 3 sample_heap
             Review_type Review_type eq_refl eq_refl).
    reflexivity.
Defined.

(** ** The Edge generator *)

(** C3.  The Edge descriptor produced for [(B, T)] is a new object type with
    exactly two fields: [node], a reference to [T] marked neither required nor
    list, and [cursor], a required string; its name is the naming function
    applied to [(B, T)] with suffix "Edge". *)
Theorem generateEdge_correct (pluralize : string -> string) (B T : loc)
    (h : heap) (ob ot : ObjectType) :
  h !! B = Some ob ->
  h !! T = Some ot ->
  exists e h' obj,
    generateEdge pluralize (mkBaseOptions B T) h = Some (e, h') /\
    h !! e = None /\
    h' !! e = Some obj /\
    obtainName pluralize "Edge" (mkBaseOptions B T) h = Some (name obj, h) /\
    size (definition obj) = 2 /\
    definition obj !! "node"
      = Some (mkGraphqlType INTERMEDIATE false false false (Some T)) /\
    definition obj !! "cursor"
      = Some (mkGraphqlType STRING false true false None).
Proof.
  intros Hob Hot.
  eexists _, _, _. split_and!.
  - apply (generateEdge_total pluralize (mkBaseOptions B T) h ob ot Hob Hot).
  - apply lookup_length_None.
  - apply new_ObjectType_lookup.
  - apply (obtainName_total pluralize "Edge"
    (mkBaseOptions B T) h ob ot Hob Hot).
  - apply edge_literal.
  - apply edge_literal.
  - apply edge_literal.
Qed.

Lemma generateEdge_correct_witness :
  exists e h' obj,
    generateEdge pluralize_en (mkBaseOptions 1 2) sample_heap = Some (e, h') /\
    sample_heap !! e = None /\
    h' !! e = Some obj /\
    obtainName pluralize_en "Edge" (mkBaseOptions 1 2) sample_heap
      = Some (name obj, sample_heap) /\
    size (definition obj) = 2 /\
    definition obj !! "node"
      = Some (mkGraphqlType INTERMEDIATE false false false (Some 2)) /\
    definition obj !! "cursor"
      = Some (mkGraphqlType STRING false true false None).
Proof.
  exact (generateEdge_correct pluralize_en 1 2 sample_heap
           Student_type Course_type eq_refl eq_refl).
Defined.

(** ** The Connection generator *)

(** C2, as the source behaves.  For a target [T] whose lower-cased pluralized
    name is not "edges", the Connection descriptor produced for [(B, T)] and
    a supplied Edge is a new object type with exactly four fields (the
    lower-casing is the language's, of which the proof uses only that its
    result holds no letter A to Z):
    [pageInfo], a required reference to the shared PageInfo descriptor;
    [edges], a list of the supplied Edge descriptor; [totalCount], an
    optional int; and the field named [lowercase(pluralize(T.name))], a list
    of direct references to [T]. *)
Theorem generateConnection_correct (pluralize toLowerCase : string -> string)
    (env : exports) (edge B T : loc) (h : heap) (ob ot : ObjectType) :
  no_upper_case toLowerCase ->
  h !! B = Some ob ->
  h !! T = Some ot ->
  is_Some (h !! PageInfo env) ->
  is_Some (h !! edge) ->
  toLowerCase (pluralize (name ot)) ≠ "edges" ->
  exists c h' obj,
    generateConnection pluralize toLowerCase env edge
      (mkBaseOptions B T) h = Some (c, h') /\
    h !! c = None /\
    h' !! c = Some obj /\
    size (definition obj) = 4 /\
    definition obj !! "pageInfo"
     
        = Some (mkGraphqlType INTERMEDIATE false true false (Some (PageInfo env))) /\
    definition obj !! "edges"
      = Some (mkGraphqlType INTERMEDIATE true false false (Some edge)) /\
    definition obj !! "totalCount"
      = Some (mkGraphqlType INT false false false None) /\
    definition obj !! toLowerCase (pluralize (name ot))
      = Some (mkGraphqlType INTERMEDIATE true false false (Some T)).
Proof.
  intros Hlc Hob Hot HP HE Hplural.
  pose proof (connection_literal
                (reference (PageInfo env) false true) (reference edge true false)
                int (reference T true false) (toLowerCase (pluralize (name ot)))
                (toLowerCase_not_pageInfo toLowerCase Hlc _) Hplural
                (toLowerCase_not_totalCount toLowerCase Hlc _))
    as (Hsize & H1 & H2 & H3 & H4).
  eexists _, _, _. split_and!.
  - apply (generateConnection_total pluralize toLowerCase env edge
    (mkBaseOptions B T)
             h ob ot Hob Hot HP HE).
  - apply lookup_length_None.
  - apply new_ObjectType_lookup.
  - exact Hsize.
  - exact H1.
  - exact H2.
  - exact H3.
  - exact H4.
Qed.

Lemma generateConnection_correct_witness :
  generateEdge pluralize_en (mkBaseOptions 1 2) sample_heap
    = Some (6, sample_heap_with_edge) /\
  exists c h' obj,
    generateConnection pluralize_en toLowerCase_ascii sample_env 6
      (mkBaseOptions 1 2) sample_heap_with_edge = Some (c, h') /\
    sample_heap_with_edge !! c = None /\
    h' !! c = Some obj /\
    size (definition obj) = 4 /\
    definition obj !! "pageInfo"
      = Some (mkGraphqlType INTERMEDIATE false true false (Some 0)) /\
    definition obj !! "edges"
      = Some (mkGraphqlType INTERMEDIATE true false false (Some 6)) /\
    definition obj !! "totalCount"
      = Some (mkGraphqlType INT false false false None) /\
    definition obj !! "courses"
      = Some (mkGraphqlType INTERMEDIATE true false false (Some 2)).
Proof.
  split; [reflexivity|].
  apply (generateConnection_correct pluralize_en toLowerCase_ascii sample_env
           6 1 2 sample_heap_with_edge Student_type Course_type
           toLowerCase_ascii_no_upper eq_refl eq_refl).
  - eexists; reflexivity.
  - eexists; reflexivity.
  - vm_compute. discriminate.
Defined.

(** C2 as the specification words it fails on the source: for the base
    Student and a target named Edge, the Edge generator followed by the
    Connection generator yields a Connection with three fields, whose
    [edges] field is a list of the target and not of the Edge built (at
    address 6). *)
Lemma generateConnection_four_fields_counterexample :
  exists h1 h2 obj,
    sample_heap !! 1 = Some Student_type /\
    sample_heap !! 5 = Some Edge_type /\
    generateEdge pluralize_en (mkBaseOptions 1 5) sample_heap = Some (6, h1) /\
    generateConnection pluralize_en toLowerCase_ascii sample_env 6
      (mkBaseOptions 1 5) h1
      = Some (7, h2) /\
    h2 !! 7 = Some obj /\
    size (definition obj) = 3 /\
    definition obj !! "edges"
      = Some (mkGraphqlType INTERMEDIATE true false false (Some 5)) /\
    definition obj !! "edges"
      ≠ Some (mkGraphqlType INTERMEDIATE true false false (Some 6)).
Proof.
  pose proof (generateEdge_total pluralize_en (mkBaseOptions 1 5) sample_heap
                Student_type Edge_type eq_refl eq_refl) as Hrun1.
  match type of Hrun1 with _ = Some (_, ?k) => set (h1 := k) in * end.
  assert (is_Some (h1 !! PageInfo sample_env)) as HP by (eexists; reflexivity).
  assert (is_Some (h1 !! 6)) as HE by (eexists; reflexivity).
  pose proof (generateConnection_total pluralize_en toLowerCase_ascii sample_env 6
                (mkBaseOptions 1 5) h1 Student_type Edge_type
                eq_refl eq_refl HP HE) as Hrun2.
  match type of Hrun2 with _ = Some (_, ?k) => set (h2 := k) in * end.
  pose proof (connection_literal_collision
                (reference 0 false true) (reference 6 true false) int
                (reference 5 true false)) as (Hsize & _ & Hedges & _).
  exists h1, h2. eexists. split_and!.
  - reflexivity.
  - reflexivity.
  - exact Hrun1.
  - exact Hrun2.
  - reflexivity.
  - exact Hsize.
  - exact Hedges.
  - intros Heq. pose proof (eq_trans (eq_sym Heq) Hedges) as [=].
Qed.

(** C5.  When the lower-cased pluralized name of the target equals one of the
    fixed field names of a Connection, the computed key replaces that fixed
    field: the Connection has fewer than four fields and its [edges] field is
    a list of direct references to the target.  (A lower-cased name holds no
    letter A to Z, so the fixed name can only be "edges".) *)
Theorem generateConnection_key_collision (pluralize toLowerCase : string -> string)
    (env : exports) (edge B T : loc) (h : heap) (ob ot : ObjectType) :
  no_upper_case toLowerCase ->
  h !! B = Some ob ->
  h !! T = Some ot ->
  is_Some (h !! PageInfo env) ->
  is_Some (h !! edge) ->
  toLowerCase (pluralize (name ot)) = "pageInfo" \/
  toLowerCase (pluralize (name ot)) = "edges" \/
  toLowerCase (pluralize (name ot)) = "totalCount" ->
  exists c h' obj,
    generateConnection pluralize toLowerCase env edge
      (mkBaseOptions B T) h = Some (c, h') /\
    h' !! c = Some obj /\
    size (definition obj) < 4 /\
    definition obj !! "edges"
      = Some (mkGraphqlType INTERMEDIATE true false false (Some T)).
Proof.
  intros Hlc Hob Hot HP HE Hkey.
  assert (toLowerCase (pluralize (name ot)) = "edges") as Hedges.
  { destruct Hkey as [Hk|[Hk|Hk]]; [|exact Hk|].
    - by apply (toLowerCase_not_pageInfo toLowerCase Hlc) in Hk.
    - by apply (toLowerCase_not_totalCount toLowerCase Hlc) in Hk. }
  pose proof (generateConnection_total pluralize toLowerCase env edge
    (mkBaseOptions B T)
                h ob ot Hob Hot HP HE) as Hrun.
  rewrite Hedges in Hrun.
  pose proof (connection_literal_collision
                (reference (PageInfo env) false true) (reference edge true false)
                int (reference T true false)) as (Hsize & _ & H2 & _).
  eexists _, _, _. split_and!.
  - exact Hrun.
  - apply new_ObjectType_lookup.
  - cbn [definition target]. rewrite Hsize. lia.
  - exact H2.
Qed.

Lemma generateConnection_key_collision_witness :
  toLowerCase_ascii (pluralize_en "Edge") = "edges" /\
  exists c h' obj,
    generateConnection pluralize_en toLowerCase_ascii sample_env 6
      (mkBaseOptions 1 5) sample_heap_with_edge = Some (c, h') /\
    h' !! c = Some obj /\
    size (definition obj) < 4 /\
    definition obj !! "edges"
      = Some (mkGraphqlType INTERMEDIATE true false false (Some 5)).
Proof.
  split; [reflexivity|].
  apply (generateConnection_key_collision pluralize_en toLowerCase_ascii
           sample_env 6 1 5 sample_heap_with_edge Student_type Edge_type
           toLowerCase_ascii_no_upper eq_refl eq_refl).
  - eexists; reflexivity.
  - eexists; reflexivity.
  - right; left; reflexivity.
Defined.

(** ** The combined generator *)

Section Combined.

Variable pluralize : string -> string.
Variable toLowerCase : string -> string.

Lemma generateConnectionAndEdge_total (env : exports)
    (options : baseOptions) (h : heap) (ob ot : ObjectType) :
  h !! base options = Some ob ->
  h !! target options = Some ot ->
  is_Some (h !! PageInfo env) ->
  let pre := if bool_decide (base options = target options)
             then "" else name ob in
  let eobj :=
    mkObjectType (pre +:+ pluralize (name ot) +:+ "Edge")
      (object_literal
         [ ("node", reference (target options) false false);
           ("cursor", required_string) ]) in
  let cobj :=
    mkObjectType (pre +:+ pluralize (name ot) +:+ "Connection")
      (object_literal
         [ ("pageInfo", reference (PageInfo env) false true);
           ("edges", reference (length h) true false);
           ("totalCount", int);
           (toLowerCase (pluralize (name ot)),
            reference (target options) true false) ]) in
  generateConnectionAndEdge pluralize toLowerCase env options h =
    Some (mkPair (length h) (S (length h)), (h ++ [eobj]) ++ [cobj]).
Proof.
  intros Hob Hot HP pre eobj cobj.
  apply generateConnectionAndEdge_iff. exists (h ++ [eobj]). split.
  - apply generateEdge_total; assumption.
  - cbn [edge connection].
    replace (S (length h)) with (length (h ++ [eobj]))
      by (rewrite length_app; simpl; lia).
    apply generateConnection_total.
    + by apply lookup_snoc_old.
    + by apply lookup_snoc_old.
    + by apply is_Some_snoc_old.
    + exists eobj. apply new_ObjectType_lookup.
Qed.

Lemma lookup_edge_built (h : heap) (eobj cobj : ObjectType) :
  ((h ++ [eobj]) ++ [cobj]) !! length h = Some eobj.
Proof. apply lookup_snoc_old. destruct eobj. apply new_ObjectType_lookup. Qed.

Lemma lookup_connection_built (h : heap) (eobj cobj : ObjectType) :
  ((h ++ [eobj]) ++ [cobj]) !! S (length h) = Some cobj.
Proof.
  replace (S (length h)) with (length (h ++ [eobj]))
    by (rewrite length_app; simpl; lia).
  destruct cobj. apply new_ObjectType_lookup.
Qed.

Lemma lookup_old_built (h : heap) (eobj cobj o : ObjectType) (l : loc) :
  h !! l = Some o -> ((h ++ [eobj]) ++ [cobj]) !! l = Some o.
Proof. intros H. by do 2 apply lookup_snoc_old. Qed.

End Combined.

(** C4.  The combined generator is the composition of the Edge generator and
    the Connection generator applied to that same Edge: on every store it
    returns what calling the first and then the second returns, as the pair
    [{edge, connection}]. *)
Theorem generateConnectionAndEdge_composition (pluralize toLowerCase : string -> string)
    (env : exports) (options : baseOptions) (h : heap) :
  generateConnectionAndEdge pluralize toLowerCase env options h
    = edge_then_connection pluralize toLowerCase env options h.
Proof.
  unfold generateConnectionAndEdge, edge_then_connection, mbind, M_bind.
  destruct (generateEdge pluralize options h) as [[e h1]|]; [|reflexivity].
  destruct (generateConnection pluralize toLowerCase env e options h1) as [[c h2]|];
    reflexivity.
Qed.

(** C6.  For a base named "Student" and a distinct target named "Course"
    (with [pluralize("Course") = "Courses"] and
    ["Courses".toLowerCase() = "courses"]), the combined generator returns
    an edge named "StudentCoursesEdge" with the fields [node] (reference to
    Course) and [cursor] (required string), and a connection named
    "StudentCoursesConnection" with the fields [pageInfo] (required PageInfo
    reference), [edges] (list of that edge), [totalCount] (int) and
    [courses] (list of Course). *)
Theorem Student_Course_example (pluralize toLowerCase : string -> string)
    (env : exports)
    (B T : loc) (h : heap) (ob ot : ObjectType) :
  pluralize "Course" = "Courses" ->
  toLowerCase "Courses" = "courses" ->
  h !! B = Some ob -> name ob = "Student" ->
  h !! T = Some ot -> name ot = "Course" ->
  B ≠ T ->
  is_Some (h !! PageInfo env) ->
  exists r h' e c,
    generateConnectionAndEdge pluralize toLowerCase env (mkBaseOptions B T) h
      = Some (r, h') /\
    h' !! edge r = Some e /\
    h' !! connection r = Some c /\
    name e = "StudentCoursesEdge" /\
    size (definition e) = 2 /\
    definition e !! "node"
      = Some (mkGraphqlType INTERMEDIATE false false false (Some T)) /\
    definition e !! "cursor"
      = Some (mkGraphqlType STRING false true false None) /\
    name c = "StudentCoursesConnection" /\
    size (definition c) = 4 /\
    definition c !! "pageInfo"
     
        = Some (mkGraphqlType INTERMEDIATE false true false (Some (PageInfo env))) /\
    definition c !! "edges"
      = Some (mkGraphqlType INTERMEDIATE true false false (Some (edge r))) /\
    definition c !! "totalCount"
      = Some (mkGraphqlType INT false false false None) /\
    definition c !! "courses"
      = Some (mkGraphqlType INTERMEDIATE true false false (Some T)).
Proof.
  intros Hpl Hlow Hob Hnb Hot Hnt HBT HP.
  pose proof (generateConnectionAndEdge_total pluralize toLowerCase env
                (mkBaseOptions B T) h ob ot Hob Hot HP) as Hrun.
  cbn [base target] in Hrun.
  rewrite bool_decide_eq_false_2, Hnb, Hnt, Hpl, Hlow in Hrun by exact HBT.
  pose proof (edge_literal (reference T false false) required_string)
    as (He0 & He1 & He2).
  pose proof (connection_literal
                (reference (PageInfo env) false true)
                (reference (length h) true false) int
                (reference T true false) "courses")
    as (Hc0 & Hc1 & Hc2 & Hc3 & Hc4); [done..|].
  eexists _, _, _, _. split_and!.
  - exact Hrun.
  - apply lookup_edge_built.
  - apply lookup_connection_built.
  - reflexivity.
  - exact He0.
  - exact He1.
  - exact He2.
  - reflexivity.
  - exact Hc0.
  - exact Hc1.
  - exact Hc2.
  - exact Hc3.
  - exact Hc4.
Qed.

Lemma Student_Course_example_witness :
  exists r h' e c,
    generateConnectionAndEdge pluralize_en toLowerCase_ascii sample_env
      (mkBaseOptions 1 2)
      sample_heap = Some (r, h') /\
    h' !! edge r = Some e /\
    h' !! connection r = Some c /\
    name e = "StudentCoursesEdge" /\
    size (definition e) = 2 /\
    definition e !! "node"
      = Some (mkGraphqlType INTERMEDIATE false false false (Some 2)) /\
    definition e !! "cursor"
      = Some (mkGraphqlType STRING false true false None) /\
    name c = "StudentCoursesConnection" /\
    size (definition c) = 4 /\
    definition c !! "pageInfo"
      = Some (mkGraphqlType INTERMEDIATE false true false (Some 0)) /\
    definition c !! "edges"
      = Some (mkGraphqlType INTERMEDIATE true false false (Some (edge r))) /\
    definition c !! "totalCount"
      = Some (mkGraphqlType INT false false false None) /\
    definition c !! "courses"
      = Some (mkGraphqlType INTERMEDIATE true false false (Some 2)).
Proof.
  apply (Student_Course_example pluralize_en toLowerCase_ascii sample_env 1 2
           sample_heap Student_type Course_type
           eq_refl eq_refl eq_refl eq_refl eq_refl eq_refl).
  - discriminate.
  - eexists; reflexivity.
Defined.

(** ** Two calls on pairs of equal value *)

Lemma shape_reference (h : heap) (o : loc) (obj : ObjectType) (l r : bool) :
  h !! o = Some obj ->
  shape h (reference o l r) = mkShape INTERMEDIATE l r false (Some (name obj)).
Proof. intros H. unfold shape, reference. cbn. rewrite H. reflexivity. Qed.




(** ** The shared PageInfo descriptor *)

Lemma PageInfo_definition_fields :
  size PageInfo_definition = 4 /\
  PageInfo_definition !! "hasNextPage"
    = Some (mkGraphqlType BOOLEAN false true false None) /\
  PageInfo_definition !! "hasPreviousPage"
    = Some (mkGraphqlType BOOLEAN false true false None) /\
  PageInfo_definition !! "startCursor"
    = Some (mkGraphqlType STRING false false false None) /\
  PageInfo_definition !! "endCursor"
    = Some (mkGraphqlType STRING false false false None).
Proof.
  unfold PageInfo_definition. cbn. split_and!.
  - rewrite !map_size_insert_None, map_size_empty; [reflexivity|..];
      by simplify_map_eq.
  - by simplify_map_eq.
  - by simplify_map_eq.
  - by simplify_map_eq.
  - by simplify_map_eq.
Qed.

(** C8.  Loading the module creates one PageInfo descriptor, a new object
    type with exactly the fields [hasNextPage] and [hasPreviousPage]
    (required booleans) and [startCursor] and [endCursor] (optional strings);
    in every later store, every Connection descriptor that
    [generateConnection] produces holds, as its [pageInfo] field, a required
    reference to that one descriptor, which is still the same.  (The plural
    key is lower-cased, so it holds no letter A to Z and is never
    "pageInfo".) *)
Theorem PageInfo_shared (pluralize toLowerCase : string -> string) (h0 : heap) :
  no_upper_case toLowerCase ->
  exists env h1 pi,
    load_module h0 = Some (env, h1) /\
    h1 = h0 ++ [pi] /\
    h0 !! PageInfo env = None /\
    h1 !! PageInfo env = Some pi /\
    name pi = "PageInfo" /\
    size (definition pi) = 4 /\
    definition pi !! "hasNextPage"
      = Some (mkGraphqlType BOOLEAN false true false None) /\
    definition pi !! "hasPreviousPage"
      = Some (mkGraphqlType BOOLEAN false true false None) /\
    definition pi !! "startCursor"
      = Some (mkGraphqlType STRING false false false None) /\
    definition pi !! "endCursor"
      = Some (mkGraphqlType STRING false false false None) /\
    forall (h : heap) (edge B T : loc) (ob ot : ObjectType),
      h1 `prefix_of` h ->
      h !! B = Some ob -> h !! T = Some ot -> is_Some (h !! edge) ->
      exists c h2 obj,
        generateConnection pluralize toLowerCase env edge (mkBaseOptions B T) h
          = Some (c, h2) /\
        h2 !! c = Some obj /\
        c ≠ PageInfo env /\
        h2 !! PageInfo env = Some pi /\
        definition obj !! "pageInfo"
          = Some (mkGraphqlType INTERMEDIATE false true false
                    (Some (PageInfo env))).
Proof.
  intros Hlc.
  destruct PageInfo_definition_fields as (Hs & Hf1 & Hf2 & Hf3 & Hf4).
  exists (mkExports (length h0)), (h0 ++ [mkObjectType "PageInfo" PageInfo_definition]),
         (mkObjectType "PageInfo" PageInfo_definition).
  cbn [PageInfo name definition].
  split_and!; [reflexivity|reflexivity|apply lookup_length_None
              |apply new_ObjectType_lookup|reflexivity
              |exact Hs|exact Hf1|exact Hf2|exact Hf3|exact Hf4|].
  - intros h edge B T ob ot Hpre Hob Hot HE.
    assert (h !! length h0 = Some (mkObjectType "PageInfo" PageInfo_definition))
      as HPI.
    { eapply prefix_lookup_Some; [|exact Hpre]. apply new_ObjectType_lookup. }
    eexists _, _, _. split_and!.
    + apply (generateConnection_total pluralize toLowerCase (mkExports (length h0)) edge
               (mkBaseOptions B T) h ob ot Hob Hot); [|exact HE].
      cbn [PageInfo]. eauto.
    + apply new_ObjectType_lookup.
    + apply lookup_lt_Some in HPI. lia.
    + apply lookup_snoc_old. exact HPI.
    + apply connection_literal_pageInfo.
      apply (toLowerCase_not_pageInfo toLowerCase Hlc).
Qed.

Lemma PageInfo_shared_witness :
  exists env h1 pi,
    load_module ([] : heap) = Some (env, h1) /\
    h1 = [] ++ [pi] /\
    ([] : heap) !! PageInfo env = None /\
    h1 !! PageInfo env = Some pi /\
    name pi = "PageInfo" /\
    size (definition pi) = 4 /\
    definition pi !! "hasNextPage"
      = Some (mkGraphqlType BOOLEAN false true false None) /\
    definition pi !! "hasPreviousPage"
      = Some (mkGraphqlType BOOLEAN false true false None) /\
    definition pi !! "startCursor"
      = Some (mkGraphqlType STRING false false false None) /\
    definition pi !! "endCursor"
      = Some (mkGraphqlType STRING false false false None) /\
    forall (h : heap) (edge B T : loc) (ob ot : ObjectType),
      h1 `prefix_of` h ->
      h !! B = Some ob -> h !! T = Some ot -> is_Some (h !! edge) ->
      exists c h2 obj,
        generateConnection pluralize_en toLowerCase_ascii env edge
          (mkBaseOptions B T) h = Some (c, h2) /\
        h2 !! c = Some obj /\
        c ≠ PageInfo env /\
        h2 !! PageInfo env = Some pi /\
        definition obj !! "pageInfo"
          = Some (mkGraphqlType INTERMEDIATE false true false
                    (Some (PageInfo env))).
Proof.
  exact (PageInfo_shared pluralize_en toLowerCase_ascii []
           toLowerCase_ascii_no_upper).
Defined.

(** ** Frame: the generators construct and never mutate *)

(** C9.  [generateEdge] and [generateConnection] leave the base, the target
    and every descriptor constructed before unchanged: each returns a store
    in which every address of the store before holds the same name and the
    same field definitions. *)
Theorem generators_frame (pluralize toLowerCase : string -> string)
    (env : exports)
    (edge B T : loc) (h : heap) (ob ot : ObjectType) :
  h !! B = Some ob ->
  h !! T = Some ot ->
  is_Some (h !! PageInfo env) ->
  is_Some (h !! edge) ->
  (exists e h',
     generateEdge pluralize (mkBaseOptions B T) h = Some (e, h') /\
     h' !! B = Some ob /\ h' !! T = Some ot /\
     forall l o, h !! l = Some o -> h' !! l = Some o) /\
  (exists c h',
     generateConnection pluralize toLowerCase env edge (mkBaseOptions B T) h
       = Some (c, h') /\
     h' !! B = Some ob /\ h' !! T = Some ot /\
     forall l o, h !! l = Some o -> h' !! l = Some o).
Proof.
  intros Hob Hot HP HE. split.
  - eexists _, _. split_and!.
    + apply (generateEdge_total pluralize (mkBaseOptions B T) h ob ot Hob Hot).
    + by apply lookup_snoc_old.
    + by apply lookup_snoc_old.
    + intros l o Hl. by apply lookup_snoc_old.
  - eexists _, _. split_and!.
    + apply (generateConnection_total pluralize toLowerCase env edge
      (mkBaseOptions B T)
               h ob ot Hob Hot HP HE).
    + by apply lookup_snoc_old.
    + by apply lookup_snoc_old.
    + intros l o Hl. by apply lookup_snoc_old.
Qed.

Lemma generators_frame_witness :
  (exists e h',
     generateEdge pluralize_en (mkBaseOptions 1 2) sample_heap_with_edge
       = Some (e, h') /\
     h' !! 1 = Some Student_type /\ h' !! 2 = Some Course_type /\
     forall l o, sample_heap_with_edge !! l = Some o -> h' !! l = Some o) /\
  (exists c h',
     generateConnection pluralize_en toLowerCase_ascii sample_env 6
       (mkBaseOptions 1 2) sample_heap_with_edge = Some (c, h') /\
     h' !! 1 = Some Student_type /\ h' !! 2 = Some Course_type /\
     forall l o, sample_heap_with_edge !! l = Some o -> h' !! l = Some o).
Proof.
  apply (generators_frame pluralize_en toLowerCase_ascii sample_env 6 1 2
           sample_heap_with_edge
           Student_type Course_type eq_refl eq_refl).
  - eexists; reflexivity.
  - eexists; reflexivity.
Defined.

(** ** Totality *)

(** C10.  On well-formed descriptors (the base, the target, the supplied
    edge and the module's PageInfo are object types of the store) the naming
    function and the three generators each return a result: the failure
    branch is not taken. *)
Theorem generators_total (pluralize toLowerCase : string -> string)
    (env : exports)
    (suffix : string) (edge : loc) (options : baseOptions) (h : heap) :
  is_Some (h !! base options) ->
  is_Some (h !! target options) ->
  is_Some (h !! PageInfo env) ->
  is_Some (h !! edge) ->
  is_Some (obtainName pluralize suffix options h) /\
  is_Some (generateEdge pluralize options h) /\
  is_Some (generateConnection pluralize toLowerCase env edge options h) /\
  is_Some (generateConnectionAndEdge pluralize toLowerCase env options h).
Proof.
  intros [ob Hob] [ot Hot] HP HE. split_and!.
  - rewrite (obtainName_total pluralize suffix options h ob ot Hob Hot). eauto.
  - rewrite (generateEdge_total pluralize options h ob ot Hob Hot). eauto.
  - rewrite (generateConnection_total pluralize toLowerCase
    env edge options h ob ot
               Hob Hot HP HE). eauto.
  - rewrite (generateConnectionAndEdge_total pluralize toLowerCase env options h ob ot
               Hob Hot HP). eauto.
Qed.

Lemma generators_total_witness :
  is_Some (obtainName pluralize_en "Edge" (mkBaseOptions 1 2)
             sample_heap_with_edge) /\
  is_Some (generateEdge pluralize_en (mkBaseOptions 1 2)
             sample_heap_with_edge) /\
  is_Some (generateConnection pluralize_en toLowerCase_ascii sample_env 6
             (mkBaseOptions 1 2) sample_heap_with_edge) /\
  is_Some (generateConnectionAndEdge pluralize_en toLowerCase_ascii sample_env
             (mkBaseOptions 1 2) sample_heap_with_edge).
Proof.
  apply (generators_total pluralize_en toLowerCase_ascii sample_env "Edge" 6
           (mkBaseOptions 1 2) sample_heap_with_edge);
    eexists; reflexivity.
Defined.

(** * Further properties of [lib/utils/appsync.ts] *)

(** ** Strings *)

Lemma append_cons (a : ascii) (s t : string) :
  String a s +:+ t = String a (s +:+ t).
Proof. reflexivity. Qed.

Lemma append_assoc_string (s t u : string) :
  (s +:+ t) +:+ u = s +:+ t +:+ u.
Proof.
  induction s as [|a s IH]; [reflexivity|].
  rewrite !append_cons, IH. reflexivity.
Qed.

Lemma length_append_string (s t : string) :
  String.length (s +:+ t) = String.length s + String.length t.
Proof.
  induction s as [|a s IH]; [reflexivity|].
  rewrite append_cons. cbn [String.length]. rewrite IH. reflexivity.
Qed.

(** Two strings that end with suffixes of the same length end with the same
    suffix when they are equal. *)
Lemma append_same_length_suffix (x y a b : string) :
  String.length a = String.length b ->
  x +:+ a = y +:+ b -> a = b.
Proof.
  intros Hlen. revert y. induction x as [|c x IH]; intros [|d y] Heq.
  - exact Heq.
  - apply (f_equal String.length) in Heq.
    rewrite !length_append_string in Heq. cbn [String.length] in Heq. lia.
  - apply (f_equal String.length) in Heq.
    rewrite !length_append_string in Heq. cbn [String.length] in Heq. lia.
  - rewrite !append_cons in Heq. injection Heq as _ Heq. eauto.
Qed.

Lemma append_Edge_not_PageInfo (x : string) : x +:+ "Edge" ≠ "PageInfo".
Proof.
  intros Heq.
  pose proof (append_same_length_suffix x "Page" "Edge" "Info" eq_refl Heq).
  discriminate.
Qed.

Lemma append_Connection_not_PageInfo (x : string) :
  x +:+ "Connection" ≠ "PageInfo".
Proof.
  intros Heq. apply (f_equal String.length) in Heq.
  rewrite length_append_string in Heq. cbn in Heq. lia.
Qed.

(** ** When the generators fail *)

Section Failure.

Variable pluralize : string -> string.

Lemma obtainName_is_Some (suffix : string) (options : baseOptions) (h : heap) :
  is_Some (obtainName pluralize suffix options h) <->
  is_Some (h !! base options) /\ is_Some (h !! target options).
Proof.
  split.
  - intros [[n h'] Hrun].
    apply obtainName_iff in Hrun as (_ & ot & prefix & Hot & Hp & _).
    split; [|eauto]. case_bool_decide as Hsame.
    + rewrite Hsame. eauto.
    + destruct (h !! base options) as [ob|]; [eauto|discriminate].
  - intros [[ob Hob] [ot Hot]].
    rewrite (obtainName_total pluralize suffix options h ob ot Hob Hot). eauto.
Qed.

End Failure.

(** ** The shape of the generated names *)

(** X2.  For a given pair, the names [obtainName] returns share a stem that
    does not depend on the suffix: the name is the stem followed by the
    suffix, so two suffixes that give the same name are the same suffix. *)
Theorem obtainName_stem (pluralize : string -> string)
    (options : baseOptions) (h : heap) (ob ot : ObjectType) :
  h !! base options = Some ob ->
  h !! target options = Some ot ->
  exists stem,
    (forall suffix,
       obtainName pluralize suffix options h = Some (stem +:+ suffix, h)) /\
    (forall s1 s2 n,
       obtainName pluralize s1 options h = Some (n, h) ->
       obtainName pluralize s2 options h = Some (n, h) ->
       s1 = s2).
Proof.
  intros Hob Hot.
  exists ((if bool_decide (base options = target options)
           then "" else name ob) +:+ pluralize (name ot)).
  assert (forall suffix,
            obtainName pluralize suffix options h =
              Some (((if bool_decide (base options = target options)
                      then "" else name ob) +:+ pluralize (name ot))
                    +:+ suffix, h)) as Hstem.
  { intros suffix. rewrite append_assoc_string.
    apply obtainName_total; assumption. }
  split; [exact Hstem|].
  intros s1 s2 n H1 H2. rewrite Hstem in H1, H2.
  injection H1 as H1. injection H2 as H2.
  rewrite <- H2 in H1. exact (String.app_inj _ _ _ H1).
Qed.

Lemma obtainName_stem_witness :
  exists stem,
    (forall suffix,
       obtainName pluralize_en suffix (mkBaseOptions 1 2) sample_heap
         = Some (stem +:+ suffix, sample_heap)) /\
    (forall s1 s2 n,
       obtainName pluralize_en s1 (mkBaseOptions 1 2) sample_heap
         = Some (n, sample_heap) ->
       obtainName pluralize_en s2 (mkBaseOptions 1 2) sample_heap
         = Some (n, sample_heap) ->
       s1 = s2).
Proof.
  exact (obtainName_stem pluralize_en (mkBaseOptions 1 2) sample_heap
           Student_type Course_type eq_refl eq_refl).
Defined.

(** X3.  The Edge and the Connection built by one call of the combined
    generator never have the same name, and neither is named "PageInfo":
    the three type names are pairwise distinct whatever the base and the
    target are called. *)
Theorem generated_names_distinct (pluralize toLowerCase : string -> string)
    (env : exports) (options : baseOptions) (h : heap) (ob ot : ObjectType) :
  h !! base options = Some ob ->
  h !! target options = Some ot ->
  is_Some (h !! PageInfo env) ->
  exists r h' e c,
    generateConnectionAndEdge pluralize toLowerCase env options h
      = Some (r, h') /\
    h' !! edge r = Some e /\
    h' !! connection r = Some c /\
    name e ≠ name c /\
    name e ≠ "PageInfo" /\
    name c ≠ "PageInfo".
Proof.
  intros Hob Hot HP.
  pose proof (generateConnectionAndEdge_total pluralize toLowerCase env options h ob ot
                Hob Hot HP) as Hrun.
  cbv zeta in Hrun.
  eexists _, _, _, _. split_and!.
  - exact Hrun.
  - apply lookup_edge_built.
  - apply lookup_connection_built.
  - cbn [name]. rewrite <- !append_assoc_string.
    intros Heq. apply String.app_inj in Heq. discriminate.
  - cbn [name]. rewrite <- !append_assoc_string.
    apply append_Edge_not_PageInfo.
  - cbn [name]. rewrite <- !append_assoc_string.
    apply append_Connection_not_PageInfo.
Qed.

Lemma generated_names_distinct_witness :
  exists r h' e c,
    generateConnectionAndEdge pluralize_en toLowerCase_ascii sample_env
      (mkBaseOptions 3 3)
      sample_heap = Some (r, h') /\
    h' !! edge r = Some e /\
    h' !! connection r = Some c /\
    name e ≠ name c /\
    name e ≠ "PageInfo" /\
    name c ≠ "PageInfo".
Proof.
  apply (generated_names_distinct pluralize_en toLowerCase_ascii sample_env
           (mkBaseOptions 3 3)
           sample_heap Review_type Review_type eq_refl eq_refl).
  eexists; reflexivity.
Defined.

(** X4.  The generator does not keep the names of different pairs apart: when
    a descriptor [S] is named by the concatenation of the names of [B] and
    of [T], and the pluralizer only changes the end of that name, the
    self-relation on [S] and the relation from [B] to [T] get the same
    name. *)
Theorem obtainName_collision (pluralize : string -> string) (suffix : string)
    (B T S : loc) (h : heap) (ob ot os : ObjectType) :
  h !! B = Some ob ->
  h !! T = Some ot ->
  h !! S = Some os ->
  B ≠ T ->
  name os = name ob +:+ name ot ->
  pluralize (name ob +:+ name ot) = name ob +:+ pluralize (name ot) ->
  exists n,
    obtainName pluralize suffix (mkBaseOptions B T) h = Some (n, h) /\
    obtainName pluralize suffix (mkBaseOptions S S) h = Some (n, h).
Proof.
  intros Hob Hot Hos HBT Hname Hpl.
  exists (name ob +:+ pluralize (name ot) +:+ suffix). split.
  - rewrite (obtainName_total pluralize suffix (mkBaseOptions B T) h ob ot
               Hob Hot).
    cbn [base target]. rewrite bool_decide_eq_false_2 by exact HBT.
    reflexivity.
  - rewrite (obtainName_total pluralize suffix (mkBaseOptions S S) h os os
               Hos Hos).
    cbn [base target]. rewrite bool_decide_eq_true_2 by reflexivity.
    rewrite Hname, Hpl, append_assoc_string. reflexivity.
Qed.

Lemma obtainName_collision_witness :
  exists n,
    obtainName pluralize_en "Edge" (mkBaseOptions 1 2) review_heap
      = Some (n, review_heap) /\
    obtainName pluralize_en "Edge" (mkBaseOptions 3 3) review_heap
      = Some (n, review_heap).
Proof.
  apply (obtainName_collision pluralize_en "Edge" 1 2 3 review_heap
           Course_type Review_type CourseReview_type
           eq_refl eq_refl eq_refl).
  - discriminate.
  - reflexivity.
  - reflexivity.
Defined.

(** ** The pair the combined generator returns *)

Lemma connection_literal_plural (p e i t : GraphqlType) (plural : string) :
  object_literal
    [ ("pageInfo", p); ("edges", e); ("totalCount", i); (plural, t) ]
    !! plural = Some t.
Proof. cbn. apply lookup_insert_eq. Qed.

Lemma connection_literal_edges (p e i t : GraphqlType) (plural : string) :
  plural ≠ "edges" ->
  object_literal
    [ ("pageInfo", p); ("edges", e); ("totalCount", i); (plural, t) ]
    !! "edges" = Some e.
Proof. intros H. cbn. by simplify_map_eq. Qed.

(** X5.  The combined generator appends exactly two object types to the
    store, the Edge and then the Connection, and returns their addresses;
    the Edge's [node] and the Connection's plural field refer to the same
    target.  When the plural key is not "edges" the pair is matched: the
    Connection's [edges] field is a list of the Edge of the same call. *)
Theorem generateConnectionAndEdge_matched
    (pluralize toLowerCase : string -> string)
    (env : exports) (options : baseOptions) (h : heap) (ob ot : ObjectType) :
  h !! base options = Some ob ->
  h !! target options = Some ot ->
  is_Some (h !! PageInfo env) ->
  exists e c,
    generateConnectionAndEdge pluralize toLowerCase env options h
      = Some (mkPair (length h) (S (length h)), h ++ [e; c]) /\
    definition e !! "node"
      = Some (mkGraphqlType INTERMEDIATE false false false
                (Some (target options))) /\
    definition c !! toLowerCase (pluralize (name ot))
      = Some (mkGraphqlType INTERMEDIATE true false false
                (Some (target options))) /\
    (toLowerCase (pluralize (name ot)) ≠ "edges" ->
     definition c !! "edges"
       = Some (mkGraphqlType INTERMEDIATE true false false (Some (length h)))).
Proof.
  intros Hob Hot HP.
  pose proof (generateConnectionAndEdge_total pluralize toLowerCase env options
                h ob ot Hob Hot HP) as Hrun.
  cbv zeta in Hrun. rewrite <- app_assoc in Hrun. cbn [app] in Hrun.
  eexists _, _. split_and!.
  - exact Hrun.
  - apply edge_literal.
  - apply connection_literal_plural.
  - intros Hplural. apply connection_literal_edges. exact Hplural.
Qed.

Lemma generateConnectionAndEdge_matched_witness :
  exists e c,
    generateConnectionAndEdge pluralize_en toLowerCase_ascii sample_env
      (mkBaseOptions 1 2) sample_heap
      = Some (mkPair 6 7, sample_heap ++ [e; c]) /\
    definition e !! "node"
      = Some (mkGraphqlType INTERMEDIATE false false false (Some 2)) /\
    definition c !! "courses"
      = Some (mkGraphqlType INTERMEDIATE true false false (Some 2)) /\
    definition c !! "edges"
      = Some (mkGraphqlType INTERMEDIATE true false false (Some 6)).
Proof.
  destruct (generateConnectionAndEdge_matched pluralize_en toLowerCase_ascii
              sample_env (mkBaseOptions 1 2) sample_heap
              Student_type Course_type eq_refl eq_refl
              (ex_intro _ _ eq_refl)) as (e & c & Hrun & Hnode & Hpl & Hedges).
  exists e, c. split_and!.
  - exact Hrun.
  - exact Hnode.
  - exact Hpl.
  - apply Hedges. vm_compute. discriminate.
Defined.

(** X6.  Once the module is loaded, the combined generator returns exactly
    when the Edge generator does: it never fails after the Edge has been
    built. *)
Theorem generateConnectionAndEdge_returns_iff
    (pluralize toLowerCase : string -> string)
    (env : exports) (options : baseOptions) (h : heap) :
  is_Some (h !! PageInfo env) ->
  (is_Some (generateConnectionAndEdge pluralize toLowerCase env options h) <->
   is_Some (generateEdge pluralize options h)).
Proof.
  intros HP. split.
  - intros [[r h'] Hrun].
    apply generateConnectionAndEdge_iff in Hrun as (h1 & He & _). eauto.
  - intros [[e h'] Hrun].
    apply generateEdge_iff in Hrun as (n & Hn & _).
    assert (is_Some (obtainName pluralize "Edge" options h)) as Hs by eauto.
    apply obtainName_is_Some in Hs as [[ob Hob] [ot Hot]].
    rewrite (generateConnectionAndEdge_total pluralize toLowerCase env options
               h ob ot Hob Hot HP). eauto.
Qed.

(** The Edge generator returns on (Student, Course), so the combined
    generator returns; on a target that is not in the store (address 9) the
    Edge generator fails, and so does the combined generator. *)
Lemma generateConnectionAndEdge_returns_iff_witness :
  generateEdge pluralize_en (mkBaseOptions 1 2) sample_heap
    = Some (6, sample_heap_with_edge) /\
  is_Some (generateConnectionAndEdge pluralize_en toLowerCase_ascii sample_env
             (mkBaseOptions 1 2) sample_heap) /\
  generateEdge pluralize_en (mkBaseOptions 1 9) sample_heap = None /\
  (is_Some (generateConnectionAndEdge pluralize_en toLowerCase_ascii sample_env
              (mkBaseOptions 1 9) sample_heap) <->
   is_Some (generateEdge pluralize_en (mkBaseOptions 1 9) sample_heap)).
Proof.
  split_and!.
  - reflexivity.
  - apply (generateConnectionAndEdge_returns_iff pluralize_en toLowerCase_ascii
             sample_env (mkBaseOptions 1 2) sample_heap);
      eexists; reflexivity.
  - reflexivity.
  - apply (generateConnectionAndEdge_returns_iff pluralize_en toLowerCase_ascii
             sample_env (mkBaseOptions 1 9) sample_heap).
    eexists; reflexivity.
Defined.

(** X7.  Whatever the target is called, the Connection built keeps its
    [pageInfo] and [totalCount] fields and holds the list of targets under
    the plural key; it has four fields, or three when the plural key is
    "edges". *)
Theorem generateConnection_fields (pluralize toLowerCase : string -> string)
    (env : exports) (edge : loc) (options : baseOptions) (h : heap)
    (ob ot : ObjectType) :
  no_upper_case toLowerCase ->
  h !! base options = Some ob ->
  h !! target options = Some ot ->
  is_Some (h !! PageInfo env) ->
  is_Some (h !! edge) ->
  exists c h' obj,
    generateConnection pluralize toLowerCase env edge options h
      = Some (c, h') /\
    h' !! c = Some obj /\
    definition obj !! "pageInfo"
     
        = Some (mkGraphqlType INTERMEDIATE false true false (Some (PageInfo env))) /\
    definition obj !! "totalCount"
      = Some (mkGraphqlType INT false false false None) /\
    definition obj !! toLowerCase (pluralize (name ot))
      = Some (mkGraphqlType INTERMEDIATE true false false
                (Some (target options))) /\
    size (definition obj)
      = if decide (toLowerCase (pluralize (name ot)) = "edges") then 3 else 4.
Proof.
  intros Hlc Hob Hot HP HE.
  pose proof (generateConnection_total pluralize toLowerCase env edge options
                h ob ot Hob Hot HP HE) as Hrun.
  eexists _, _, _. split; [exact Hrun|].
  split; [apply new_ObjectType_lookup|]. cbn [definition].
  destruct (decide (toLowerCase (pluralize (name ot)) = "edges")) as [Heq|Hne].
  - rewrite Heq.
    pose proof (connection_literal_collision
                  (reference (PageInfo env) false true)
                  (reference edge true false) int
                  (reference (target options) true false))
      as (Hs & H1 & H2 & H3).
    split_and!; assumption.
  - pose proof (connection_literal
                  (reference (PageInfo env) false true)
                  (reference edge true false) int
                  (reference (target options) true false)
                  (toLowerCase (pluralize (name ot)))
                  (toLowerCase_not_pageInfo toLowerCase Hlc _) Hne
                  (toLowerCase_not_totalCount toLowerCase Hlc _))
      as (Hs & H1 & H2 & H3 & H4).
    split_and!; assumption.
Qed.

(** Two runs on the store that holds the Edge of (Student, Course): the
    target Course gives four fields, the target named Edge gives three. *)
Lemma generateConnection_fields_witness :
  (exists c h' obj,
     generateConnection pluralize_en toLowerCase_ascii sample_env 6
       (mkBaseOptions 1 2) sample_heap_with_edge = Some (c, h') /\
     h' !! c = Some obj /\
     definition obj !! "pageInfo"
       = Some (mkGraphqlType INTERMEDIATE false true false (Some 0)) /\
     definition obj !! "totalCount"
       = Some (mkGraphqlType INT false false false None) /\
     definition obj !! "courses"
       = Some (mkGraphqlType INTERMEDIATE true false false (Some 2)) /\
     size (definition obj) = 4) /\
  (exists c h' obj,
     generateConnection pluralize_en toLowerCase_ascii sample_env 6
       (mkBaseOptions 1 5) sample_heap_with_edge = Some (c, h') /\
     h' !! c = Some obj /\
     definition obj !! "pageInfo"
       = Some (mkGraphqlType INTERMEDIATE false true false (Some 0)) /\
     definition obj !! "totalCount"
       = Some (mkGraphqlType INT false false false None) /\
     definition obj !! "edges"
       = Some (mkGraphqlType INTERMEDIATE true false false (Some 5)) /\
     size (definition obj) = 3).
Proof.
  split.
  - apply (generateConnection_fields pluralize_en toLowerCase_ascii sample_env
             6 (mkBaseOptions 1 2) sample_heap_with_edge
             Student_type Course_type toLowerCase_ascii_no_upper
             eq_refl eq_refl); eexists; reflexivity.
  - apply (generateConnection_fields pluralize_en toLowerCase_ascii sample_env
             6 (mkBaseOptions 1 5) sample_heap_with_edge
             Student_type Edge_type toLowerCase_ascii_no_upper
             eq_refl eq_refl); eexists; reflexivity.
Defined.

(** ** Well-formed stores stay well-formed *)

Lemma field_ok_mono (h k : heap) (g : GraphqlType) :
  field_ok h g -> field_ok (h ++ k) g.
Proof.
  unfold field_ok. destruct (intermediateType g) as [r|]; [|auto].
  intros [Ht [o Ho]]. split; [exact Ht|]. exists o.
  by apply lookup_app_l_Some.
Qed.

Lemma field_ok_reference (h : heap) (o : loc) (l r : bool) :
  is_Some (h !! o) -> field_ok h (reference o l r).
Proof. intros Ho. unfold field_ok, reference. cbn. auto. Qed.

Lemma field_ok_scalar (h : heap) (t : Type_) (opts : BaseTypeOptions) :
  t ≠ INTERMEDIATE -> field_ok h (scalar t opts).
Proof. intros Ht. unfold field_ok, scalar. cbn. exact Ht. Qed.

Lemma closed_snoc (h : heap) (o : ObjectType) :
  closed h ->
  map_Forall (fun _ g => field_ok (h ++ [o]) g) (definition o) ->
  closed (h ++ [o]).
Proof.
  unfold closed. intros Hh Ho. apply Forall_app. split.
  - eapply Forall_impl; [exact Hh|]. intros o' Ho'.
    eapply map_Forall_impl; [exact Ho'|]. intros k g. apply field_ok_mono.
  - apply Forall_singleton. exact Ho.
Qed.

Lemma edge_literal_ok (h : heap) (T : loc) :
  is_Some (h !! T) ->
  map_Forall (fun _ g => field_ok h g)
    (object_literal
       [ ("node", reference T false false); ("cursor", required_string) ]).
Proof.
  intros HT. cbn. repeat apply map_Forall_insert_2; try apply map_Forall_empty.
  - by apply field_ok_scalar.
  - by apply field_ok_reference.
Qed.

Lemma connection_literal_ok (h : heap) (P E T : loc) (plural : string) :
  is_Some (h !! P) -> is_Some (h !! E) -> is_Some (h !! T) ->
  map_Forall (fun _ g => field_ok h g)
    (object_literal
       [ ("pageInfo", reference P false true);
         ("edges", reference E true false);
         ("totalCount", int);
         (plural, reference T true false) ]).
Proof.
  intros HP HE HT. cbn.
  repeat apply map_Forall_insert_2; try apply map_Forall_empty.
  - by apply field_ok_reference.
  - by apply field_ok_scalar.
  - by apply field_ok_reference.
  - by apply field_ok_reference.
Qed.

Lemma PageInfo_definition_ok (h : heap) :
  map_Forall (fun _ g => field_ok h g) PageInfo_definition.
Proof.
  unfold PageInfo_definition. cbn.
  repeat apply map_Forall_insert_2; try apply map_Forall_empty;
    by apply field_ok_scalar.
Qed.

Lemma sample_heap_closed : closed sample_heap.
Proof.
  unfold closed, sample_heap. repeat apply Forall_cons_2; [..|apply Forall_nil_2].
  - apply PageInfo_definition_ok.
  - cbn. repeat apply map_Forall_insert_2; try apply map_Forall_empty;
      by apply field_ok_scalar.
  - cbn. repeat apply map_Forall_insert_2; try apply map_Forall_empty;
      by apply field_ok_scalar.
  - cbn. repeat apply map_Forall_insert_2; try apply map_Forall_empty;
      by apply field_ok_scalar.
  - cbn. repeat apply map_Forall_insert_2; try apply map_Forall_empty;
      by apply field_ok_scalar.
  - cbn. repeat apply map_Forall_insert_2; try apply map_Forall_empty;
      by apply field_ok_scalar.
Qed.

Lemma sample_heap_with_edge_closed : closed sample_heap_with_edge.
Proof.
  apply closed_snoc; [exact sample_heap_closed|].
  apply (edge_literal_ok _ 2). eexists; reflexivity.
Qed.

(** X8.  Loading the module and each generator keep the store closed: if no
    field of any object type refers outside the store before the call, none
    does after it, the new descriptors included.  Loading the module needs
    nothing of the store (it may be empty); a generator needs its arguments
    and PageInfo in the store. *)
Theorem store_closed_preserved (pluralize toLowerCase : string -> string)
    (h : heap) :
  closed h ->
  (exists env' h', load_module h = Some (env', h') /\ closed h') /\
  (forall (env : exports) (edge : loc) (options : baseOptions),
     is_Some (h !! base options) ->
     is_Some (h !! target options) ->
     is_Some (h !! PageInfo env) ->
     is_Some (h !! edge) ->
     (exists e h',
        generateEdge pluralize options h = Some (e, h') /\ closed h') /\
     (exists c h',
        generateConnection pluralize toLowerCase env edge options h
          = Some (c, h') /\
        closed h') /\
     (exists r h',
        generateConnectionAndEdge pluralize toLowerCase env options h
          = Some (r, h') /\
        closed h')).
Proof.
  intros Hcl. split.
  { eexists _, _. split; [reflexivity|].
    apply closed_snoc; [exact Hcl|]. apply PageInfo_definition_ok. }
  intros env edge options [ob Hob] [ot Hot] HP HE.
  assert (is_Some (h !! target options)) as HT by eauto.
  split_and!.
  - eexists _, _. split.
    + apply (generateEdge_total pluralize options h ob ot Hob Hot).
    + apply closed_snoc; [exact Hcl|]. cbn [definition].
      apply edge_literal_ok. by apply is_Some_snoc_old.
  - eexists _, _. split.
    + apply (generateConnection_total pluralize toLowerCase env edge options
               h ob ot Hob Hot HP HE).
    + apply closed_snoc; [exact Hcl|]. cbn [definition].
      apply connection_literal_ok; by apply is_Some_snoc_old.
  - eexists _, _. split.
    + apply (generateConnectionAndEdge_total pluralize toLowerCase env options
               h ob ot Hob Hot HP).
    + cbv zeta. apply closed_snoc; [apply closed_snoc; [exact Hcl|]|].
      * cbn [definition]. apply edge_literal_ok. by apply is_Some_snoc_old.
      * cbn [definition]. apply connection_literal_ok.
        -- by do 2 apply is_Some_snoc_old.
        -- apply is_Some_snoc_old. eexists. apply new_ObjectType_lookup.
        -- by do 2 apply is_Some_snoc_old.
Qed.

(** The module loaded on the empty store, and the generators run on the
    sample store that holds PageInfo and the Edge of (Student, Course). *)
Lemma store_closed_preserved_witness :
  (exists env' h', load_module ([] : heap) = Some (env', h') /\ closed h') /\
  (exists e h',
     generateEdge pluralize_en (mkBaseOptions 1 2) sample_heap_with_edge
       = Some (e, h') /\
     closed h') /\
  (exists c h',
     generateConnection pluralize_en toLowerCase_ascii sample_env 6
       (mkBaseOptions 1 2) sample_heap_with_edge = Some (c, h') /\
     closed h') /\
  (exists r h',
     generateConnectionAndEdge pluralize_en toLowerCase_ascii sample_env
       (mkBaseOptions 1 2) sample_heap_with_edge = Some (r, h') /\
     closed h').
Proof.
  split.
  - apply (proj1 (store_closed_preserved pluralize_en toLowerCase_ascii []
                    (Forall_nil_2 _))).
  - apply (proj2 (store_closed_preserved pluralize_en toLowerCase_ascii
                    sample_heap_with_edge sample_heap_with_edge_closed)
             sample_env 6 (mkBaseOptions 1 2)); eexists; reflexivity.
Defined.

(** X9.  The descriptors the combined generator builds refer only to object
    types allocated before them: the Edge to the target, the Connection to
    PageInfo, to the Edge and to the target.  A generated descriptor never
    refers to itself or to a later one. *)
Theorem generated_refer_back (pluralize toLowerCase : string -> string)
    (env : exports)
    (options : baseOptions) (h : heap) (ob ot : ObjectType) :
  h !! base options = Some ob ->
  h !! target options = Some ot ->
  is_Some (h !! PageInfo env) ->
  exists r h' e c,
    generateConnectionAndEdge pluralize toLowerCase env options h
      = Some (r, h') /\
    h' !! edge r = Some e /\
    h' !! connection r = Some c /\
    refers_back (edge r) e /\
    refers_back (connection r) c.
Proof.
  intros Hob Hot [pi HP].
  pose proof (generateConnectionAndEdge_total pluralize toLowerCase env options h ob ot
                Hob Hot (ex_intro _ pi HP)) as Hrun.
  cbv zeta in Hrun.
  apply lookup_lt_Some in Hot as HltT. apply lookup_lt_Some in HP as HltP.
  eexists _, _, _, _. split_and!.
  - exact Hrun.
  - apply lookup_edge_built.
  - apply lookup_connection_built.
  - unfold refers_back. cbn.
    repeat apply map_Forall_insert_2; try apply map_Forall_empty;
      intros r [= <-] || intros r [=]; lia.
  - unfold refers_back. cbn.
    repeat apply map_Forall_insert_2; try apply map_Forall_empty;
      intros r [= <-] || intros r [=]; lia.
Qed.

Lemma generated_refer_back_witness :
  exists r h' e c,
    generateConnectionAndEdge pluralize_en toLowerCase_ascii sample_env
      (mkBaseOptions 3 3)
      sample_heap = Some (r, h') /\
    h' !! edge r = Some e /\
    h' !! connection r = Some c /\
    refers_back (edge r) e /\
    refers_back (connection r) c.
Proof.
  apply (generated_refer_back pluralize_en toLowerCase_ascii sample_env
           (mkBaseOptions 3 3)
           sample_heap Review_type Review_type eq_refl eq_refl).
  eexists; reflexivity.
Defined.

(** ** Relations to one target *)

Lemma append_cancel_r (x y s : string) : x +:+ s = y +:+ s -> x = y.
Proof.
  revert y. induction x as [|c x IH]; intros [|d y] Heq.
  - reflexivity.
  - apply (f_equal String.length) in Heq.
    rewrite !length_append_string in Heq. cbn [String.length] in Heq. lia.
  - apply (f_equal String.length) in Heq.
    rewrite !length_append_string in Heq. cbn [String.length] in Heq. lia.
  - rewrite !append_cons in Heq. injection Heq as -> Heq.
    f_equal. apply IH. exact Heq.
Qed.

(** X11.  For one target, the generated name tells the bases apart by their
    names: two relations to the target from bases distinct from it get the
    same name only if the bases have the same name, and such a relation gets
    the name of the target's self-relation only if the base's name is
    empty. *)
Theorem obtainName_same_target (pluralize : string -> string) (suffix : string)
    (B1 B2 T : loc) (h : heap) (ob1 ob2 ot : ObjectType) :
  h !! B1 = Some ob1 ->
  h !! B2 = Some ob2 ->
  h !! T = Some ot ->
  B1 ≠ T ->
  B2 ≠ T ->
  (obtainName pluralize suffix (mkBaseOptions B1 T) h
     = obtainName pluralize suffix (mkBaseOptions B2 T) h ->
   name ob1 = name ob2) /\
  (obtainName pluralize suffix (mkBaseOptions B1 T) h
     = obtainName pluralize suffix (mkBaseOptions T T) h ->
   name ob1 = "").
Proof.
  intros Hob1 Hob2 Hot H1 H2.
  rewrite (obtainName_total pluralize suffix (mkBaseOptions B1 T) h ob1 ot
             Hob1 Hot),
          (obtainName_total pluralize suffix (mkBaseOptions B2 T) h ob2 ot
             Hob2 Hot),
          (obtainName_total pluralize suffix (mkBaseOptions T T) h ot ot
             Hot Hot).
  cbn [base target].
  rewrite (bool_decide_eq_false_2 (B1 = T)), (bool_decide_eq_false_2 (B2 = T)),
    (bool_decide_eq_true_2 (T = T)) by done.
  split; intros [= Heq]; exact (append_cancel_r _ _ _ Heq).
Qed.

Lemma obtainName_same_target_witness :
  (obtainName pluralize_en "Edge" (mkBaseOptions 1 2) sample_heap
     = obtainName pluralize_en "Edge" (mkBaseOptions 3 2) sample_heap ->
   name Student_type = name Review_type) /\
  (obtainName pluralize_en "Edge" (mkBaseOptions 1 2) sample_heap
     = obtainName pluralize_en "Edge" (mkBaseOptions 2 2) sample_heap ->
   name Student_type = "").
Proof.
  apply (obtainName_same_target pluralize_en "Edge" 1 3 2 sample_heap
           Student_type Review_type Course_type eq_refl eq_refl eq_refl);
    discriminate.
Defined.

(** X12.  The base contributes to the name only: the Edge and the Connection
    built for two bases and the same target have the same field
    definitions. *)
Theorem base_only_in_name (pluralize toLowerCase : string -> string)
    (env : exports)
    (edge B1 B2 T : loc) (h : heap) (ob1 ob2 ot : ObjectType) :
  h !! B1 = Some ob1 ->
  h !! B2 = Some ob2 ->
  h !! T = Some ot ->
  is_Some (h !! PageInfo env) ->
  is_Some (h !! edge) ->
  exists e1 e2 c1 c2,
    generateEdge pluralize (mkBaseOptions B1 T) h
      = Some (length h, h ++ [e1]) /\
    generateEdge pluralize (mkBaseOptions B2 T) h
      = Some (length h, h ++ [e2]) /\
    definition e1 = definition e2 /\
    generateConnection pluralize toLowerCase env edge (mkBaseOptions B1 T) h
      = Some (length h, h ++ [c1]) /\
    generateConnection pluralize toLowerCase env edge (mkBaseOptions B2 T) h
      = Some (length h, h ++ [c2]) /\
    definition c1 = definition c2.
Proof.
  intros Hob1 Hob2 Hot HP HE.
  eexists _, _, _, _. split_and!.
  - apply (generateEdge_total pluralize (mkBaseOptions B1 T) h ob1 ot Hob1 Hot).
  - apply (generateEdge_total pluralize (mkBaseOptions B2 T) h ob2 ot Hob2 Hot).
  - reflexivity.
  - apply (generateConnection_total pluralize toLowerCase env edge
    (mkBaseOptions B1 T) h
             ob1 ot Hob1 Hot HP HE).
  - apply (generateConnection_total pluralize toLowerCase env edge
    (mkBaseOptions B2 T) h
             ob2 ot Hob2 Hot HP HE).
  - reflexivity.
Qed.

Lemma base_only_in_name_witness :
  exists e1 e2 c1 c2,
    generateEdge pluralize_en (mkBaseOptions 1 2) sample_heap_with_edge
      = Some (7, sample_heap_with_edge ++ [e1]) /\
    generateEdge pluralize_en (mkBaseOptions 3 2) sample_heap_with_edge
      = Some (7, sample_heap_with_edge ++ [e2]) /\
    definition e1 = definition e2 /\
    generateConnection pluralize_en toLowerCase_ascii sample_env 6
      (mkBaseOptions 1 2) sample_heap_with_edge
      = Some (7, sample_heap_with_edge ++ [c1]) /\
    generateConnection pluralize_en toLowerCase_ascii sample_env 6
      (mkBaseOptions 3 2) sample_heap_with_edge
      = Some (7, sample_heap_with_edge ++ [c2]) /\
    definition c1 = definition c2.
Proof.
  apply (base_only_in_name pluralize_en toLowerCase_ascii sample_env 6 1 3 2
           sample_heap_with_edge
           Student_type Review_type Course_type eq_refl eq_refl eq_refl);
    eexists; reflexivity.
Defined.
